(** * auth-service: the Express application and its bootstrap

    A shallow embedding of [src/server.ts] and [src/app.ts] (and of the
    helper exercised by [app.test.ts]).  JavaScript values are an inductive
    type whose numbers are IEEE binary64 floats; the effects of the program
    (logger, console, process exit, the response object, exceptions) are
    threaded through a small state-and-completion monad.

    The program runs on Express and Node, which are not part of the
    sources, and the sources do not say which major version of Express is
    installed.  Their behaviour is modelled where Express 4 (4.18 or later)
    and Express 5 agree and the outcome can be computed here; where they
    differ, or where the outcome depends on a digest of the body, the model
    stops with the completion [Unmodelled] instead of guessing. *)

From Stdlib Require Import String List ZArith Bool.
From Stdlib Require Import PrimFloat.
Import ListNotations.

Local Open Scope string_scope.
Local Open Scope list_scope.

(** ** JavaScript values *)

Local Set Warnings "-register-all".

(** An object is given by its own enumerable properties, in enumeration
    order. *)
Inductive value : Type :=
| VUndefined
| VNull
| VBool (b : bool)
| VNumber (x : float)
| VString (s : string)
| VArray (xs : list value)
| VObject (fields : list (string * value)).

(** ECMAScript [ToBoolean]: [undefined], [null], [false], [+0], [-0], [NaN]
    and the empty string are falsy, everything else is truthy. *)
Definition ToBoolean (v : value) : bool :=
  match v with
  | VUndefined | VNull => false
  | VBool b => b
  | VNumber x => negb (is_zero x || is_nan x)
  | VString s => negb (String.eqb s "")
  | VArray _ | VObject _ => true
  end.

(** [a || b]: the left operand when it is truthy, else the right one. *)
Definition js_or (a b : value) : value :=
  if ToBoolean a then a else b.

(** A JSON document.  The text [JSON.stringify] produces is a function of
    the document it denotes, so a JSON body is represented by that
    document. *)
Inductive json : Type :=
| JNull
| JBool (b : bool)
| JNumber (x : float)
| JString (s : string)
| JArray (items : list json)
| JObject (members : list (string * json)).

(** [JSON.stringify(v)], as the document denoted by its result; [None] is
    the result [undefined].  A property whose value is [undefined] is left
    out of an object, an [undefined] array element becomes [null], a
    number that is not finite becomes [null], and [-0] is written [0]. *)
Fixpoint stringify (v : value) : option json :=
  match v with
  | VUndefined => None
  | VNull => Some JNull
  | VBool b => Some (JBool b)
  | VNumber x =>
      Some (if is_nan x || is_infinity x then JNull
            else if is_zero x then JNumber 0
            else JNumber x)
  | VString s => Some (JString s)
  | VArray xs =>
      Some (JArray
              (map (fun x => match stringify x with
                             | Some j => j
                             | None => JNull
                             end) xs))
  | VObject fields =>
      Some (JObject
              ((fix members (fs : list (string * value)) :=
                  match fs with
                  | [] => []
                  | (k, x) :: rest =>
                      match stringify x with
                      | Some j => (k, j) :: members rest
                      | None => members rest
                      end
                  end) fields))
  end.

(** The error-shaped value the program handles: the three properties that
    are ever read off a caught or forwarded error.  An absent property
    reads as [VUndefined]. *)
Record HttpError : Type := mkHttpError {
  statusCode : value;
  name : value;
  message : value
}.

(** What can be thrown: an error value, or one of the two errors the
    response object raises.  The text of an invalid-status error differs
    between Express 5 (raised by [res.status]) and Node (raised when the
    head is written), so it is kept symbolic. *)
Inductive Exception : Type :=
| Raised (e : HttpError)
| InvalidStatusCode (code : value)
| HeadersSent.

(** ** The world the program acts on *)

Inductive Level : Type := warn_level | error_level | info_level.

Record LogLine : Type := mkLogLine {
  level : Level;
  args : list value
}.

Inductive Payload : Type :=
| Text (s : string)          (* the string given to res.send          *)
| Json (doc : json)          (* the JSON text written by res.json     *)
| NoBody.                    (* no body goes out                      *)

(** One HTTP response as put on the wire: status and body. *)
Record Message : Type := mkMessage {
  status : value;
  payload : Payload
}.

(** The [res] object of the request being handled. *)
Record Response : Type := mkResponse {
  res_statusCode : value;
  sent : list Message
}.

(** A new response object starts with status 200 and nothing written. *)
Definition fresh_response : Response :=
  {| res_statusCode := VNumber 200; sent := [] |}.

(** Outcome of one call of [app.listen], decided by the environment. *)
Inductive BindResult : Type :=
| Bound                          (* the socket listens                   *)
| ListenThrows (e : HttpError)   (* the call itself throws, e.g. for a
                                    port outside 0..65535                *)
| ErrorEvent (e : HttpError)     (* the bind fails: the server emits
                                    'error' and nothing listens for it
                                    (Express 4)                          *)
| ErrorToCallback (e : HttpError). (* the bind fails: Express 5 hands the
                                    error to the listen callback         *)

Record World : Type := mkWorld {
  logged : list LogLine;         (* the logger's sink, append-only          *)
  stderr : list Exception;       (* what console.error printed              *)
  listens : list value;          (* the ports handed to app.listen, in order *)
  bind_outcome : nat -> BindResult; (* environment: outcome of the n-th bind *)
  res : Response                 (* response object of the current request  *)
}.

Definition set_logged (w : World) (l : list LogLine) : World :=
  mkWorld l (stderr w) (listens w) (bind_outcome w) (res w).
Definition set_stderr (w : World) (l : list Exception) : World :=
  mkWorld (logged w) l (listens w) (bind_outcome w) (res w).
Definition set_listens (w : World) (l : list value) : World :=
  mkWorld (logged w) (stderr w) l (bind_outcome w) (res w).
Definition set_res (w : World) (r : Response) : World :=
  mkWorld (logged w) (stderr w) (listens w) (bind_outcome w) r.

(** ** Computations: state, exceptions and process exit *)

Inductive Completion (A : Type) : Type :=
| Normal (a : A)               (* ran to the end                       *)
| Throw (e : Exception)        (* an exception is propagating          *)
| Exit (code : Z)              (* process.exit(code) was called        *)
| Unmodelled.                  (* the environment's answer is not
                                  modelled; nothing is said from here  *)
Arguments Normal {A} a.
Arguments Throw {A} e.
Arguments Exit {A} code.
Arguments Unmodelled {A}.

Definition M (A : Type) : Type := World -> Completion A * World.

Definition ret {A} (a : A) : M A := fun w => (Normal a, w).

Definition bind {A B} (c : M A) (k : A -> M B) : M B :=
  fun w =>
    match c w with
    | (Normal a, w') => k a w'
    | (Throw e, w') => (Throw e, w')
    | (Exit code, w') => (Exit code, w')
    | (Unmodelled, w') => (Unmodelled, w')
    end.

Definition throw {A} (e : Exception) : M A := fun w => (Throw e, w).

Definition unmodelled {A} : M A := fun w => (Unmodelled, w).

(** [try { body } catch (err) { handler }].  An exit is not an exception. *)
Definition try_catch {A} (body : M A) (handler : Exception -> M A) : M A :=
  fun w =>
    match body w with
    | (Throw e, w') => handler e w'
    | r => r
    end.

Declare Scope js_scope.
Delimit Scope js_scope with js.
Notation "x <- c ;; k" := (bind c (fun x => k))
  (at level 61, c at next level, right associativity) : js_scope.
Notation "c ;; k" := (bind c (fun _ => k))
  (at level 61, right associativity) : js_scope.
Local Open Scope js_scope.

Definition exec {A} (c : M A) (w : World) : World := snd (c w).
Definition completion {A} (c : M A) (w : World) : Completion A := fst (c w).

(** ** External collaborators *)

(** Modelled from the spec: [config/logger.js] is not part of the sources.
    It is "an external collaborator exposing warn, error, info methods"
    over "a shared logging sink (append-only)": each call appends one line
    at its severity, carrying the arguments of the call. *)
Module logger.
Definition log (l : Level) (xs : list value) : M unit :=
  fun w => (Normal tt, set_logged w (logged w ++ [mkLogLine l xs])).
Definition warn := log warn_level.
Definition error := log error_level.
Definition info := log info_level.
End logger.

Module console.
Definition error (e : Exception) : M unit :=
  fun w => (Normal tt, set_stderr w (stderr w ++ [e])).
End console.

Module process.
Definition exit {A} (code : Z) : M A := fun w => (Exit code, w).
End process.

(** Modelled from the spec: [config/index.js] is not part of the sources;
    it is the process-wide configuration holding "a PORT value, source and
    defaults unspecified". *)
Record ConfigT : Type := mkConfig { PORT : value }.

Inductive Method : Type := GET | HEAD | POST | PUT | PATCH | DELETE | OPTIONS.

Definition Method_eqb (a b : Method) : bool :=
  match a, b with
  | GET, GET | HEAD, HEAD | POST, POST | PUT, PUT
  | PATCH, PATCH | DELETE, DELETE | OPTIONS, OPTIONS => true
  | _, _ => false
  end.

(** [headers] is Node's [req.headers]: one entry per header, names in
    lower case. *)
Record Request : Type := mkRequest {
  method : Method;
  path : string;                       (* the URL's path, query removed *)
  query : list (string * string);
  headers : list (string * string);
  body : value
}.

(** [req.headers[name]], when present and not the empty string. *)
Definition header (req : Request) (name : string) : option string :=
  match find (fun kv => String.eqb (fst kv) name) (headers req) with
  | Some (_, v) => if String.eqb v "" then None else Some v
  | None => None
  end.

(** *** Status codes *)

(** [x] is one of [from], [from + 1], ..., [from + n - 1]. *)
Fixpoint among (x from : float) (n : nat) : bool :=
  match n with
  | O => false
  | S k => (x =? from)%float || among x (from + 1)%float k
  end.

(** An integer from 100 to 999: what both [res.status] of Express 5 and
    Node's [writeHead] accept, and write unchanged. *)
Definition valid_status (x : float) : bool := among x 100 900.

Inductive Verdict : Type :=
| Accepted (x : float)     (* a valid status code                          *)
| Rejected                 (* refused by Express 5 and by Node alike       *)
| Undetermined.            (* Express 4 and 5 disagree, or not computed    *)

(** Express 5's [res.status] refuses whatever is not an integer from 100
    to 999.  With Express 4 the check is Node's, when the head is written:
    the code is converted by [code | 0] and refused outside 100..999.  A
    number below 100 or from 1000 up (of magnitude below 2^31, so that
    [| 0] truncates), a NaN, an infinity, [undefined], [null] and the
    booleans are refused by both. *)
Definition status_verdict (code : value) : Verdict :=
  match code with
  | VNumber x =>
      if valid_status x then Accepted x
      else if is_nan x || is_infinity x
              || ((-2147483648 <? x) && (x <? 100))
              || ((1000 <=? x) && (x <? 2147483648))
      then Rejected
      else Undetermined
  | VUndefined | VNull | VBool _ => Rejected
  | VString _ | VArray _ | VObject _ => Undetermined
  end%float.

(** Statuses that go out without a body: 1xx, 204 and 304 (Node), and 205
    (Express). *)
Definition bodiless (x : float) : bool :=
  (((100 <=? x) && (x <? 200)) || (x =? 204) || (x =? 205) || (x =? 304))%float.

(** *** Cache validation *)

(** Express's [req.fresh] for a response of status [x] that carries an
    ETag and no Last-Modified header, which is what [res.send] produces
    for this application.  Only GET and HEAD requests answered 2xx or 304
    can be fresh.  Without an [If-None-Match] header the request is not
    fresh; with [If-None-Match: *] and neither [If-Modified-Since] nor
    [Cache-Control] it is.  The other cases depend on the ETag (a digest
    of the body), on the [no-cache] test, or on the version of the [fresh]
    package, and are not decided here. *)
Definition fresh (req : Request) (x : float) : option bool :=
  if negb (Method_eqb (method req) GET || Method_eqb (method req) HEAD)
  then Some false
  else if negb (((200 <=? x) && (x <? 300)) || (x =? 304))%float
  then Some false
  else
    match header req "if-none-match" with
    | None => Some false
    | Some noneMatch =>
        match header req "cache-control", header req "if-modified-since" with
        | None, None =>
            if String.eqb noneMatch "*" then Some true else None
        | _, _ => None
        end
    end.

(** *** The response object *)

(** The Express response API used by the handlers.  [res] belongs to one
    request ([res.req]), which [res.send] consults. *)
Module response.

(** [res.status(code)].  A refused code makes the handler throw before
    anything is written: here with Express 5, when the head is written
    with Express 4.  On a response already sent the two fail in different
    ways, which is not modelled. *)
Definition status (code : value) : M unit :=
  fun w =>
    match status_verdict code with
    | Accepted _ =>
        (Normal tt, set_res w (mkResponse code (sent (res w))))
    | Rejected =>
        match sent (res w) with
        | [] => (Throw (InvalidStatusCode code), w)
        | _ :: _ => (Unmodelled, w)
        end
    | Undetermined => (Unmodelled, w)
    end.

(** The status a response goes out with: 304 for a fresh request. *)
Definition settled (x : float) (is_fresh : bool) : float :=
  if is_fresh then 304%float else x.

(** The body that goes out: none for a bodiless status or a HEAD
    request. *)
Definition on_wire (req : Request) (x : float) (p : Payload) : Payload :=
  if bodiless x || Method_eqb (method req) HEAD then NoBody else p.

(** The tail of [res.send]: setting a header on a response that was
    already sent throws; the status is checked when the head is written;
    a fresh request is answered 304. *)
Definition write (req : Request) (p : Payload) : M unit :=
  fun w =>
    match sent (res w) with
    | _ :: _ => (Throw HeadersSent, w)
    | [] =>
        match status_verdict (res_statusCode (res w)) with
        | Rejected => (Throw (InvalidStatusCode (res_statusCode (res w))), w)
        | Undetermined => (Unmodelled, w)
        | Accepted x =>
            match fresh req x with
            | None => (Unmodelled, w)
            | Some is_fresh =>
                let x' := settled x is_fresh in
                (Normal tt,
                 set_res w (mkResponse
                              (VNumber x')
                              [mkMessage (VNumber x') (on_wire req x' p)]))
            end
        end
    end.

(** [res.send(body)] with a string body. *)
Definition send (req : Request) (body : string) : M unit :=
  write req (Text body).

(** [res.json(obj)]: [res.send(JSON.stringify(obj))]. *)
Definition json (req : Request) (obj : value) : M unit :=
  write req (match stringify obj with
             | Some doc => Json doc
             | None => NoBody
             end).

End response.

(** *** The router *)

(** [next()] and [next(err)]. *)
Definition NextFunction : Type := option Exception -> M unit.

Inductive Layer : Type :=
| Route (m : Method) (p : string) (h : Request -> NextFunction -> M unit)
| ErrorMiddleware (h : HttpError -> Request -> NextFunction -> M unit).

(** A route registered for GET also serves HEAD. *)
Definition route_matches (m : Method) (p : string) (req : Request) : bool :=
  (Method_eqb m (method req)
   || (Method_eqb m GET && Method_eqb (method req) HEAD))
  && String.eqb p (path req).

(** Express's [app.handle(req, res, done)]: walk the stack in registration
    order.  Without a pending error the first matching route runs and
    error middleware is skipped; with a pending error only error middleware
    runs.  [next] resumes the walk after the current layer; an exception
    thrown by a handler is forwarded as [next(err)]; [done] is called when
    the stack is exhausted.  What an error middleware would read off an
    exception raised by the response object is not modelled. *)
Fixpoint handle_from (stack : list Layer) (err : option Exception)
         (req : Request) (done : NextFunction) : M unit :=
  match stack with
  | [] => done err
  | Route m p h :: rest =>
      let next : NextFunction := fun e => handle_from rest e req done in
      match err with
      | None =>
          if route_matches m p req
          then try_catch (h req next) (fun e => next (Some e))
          else next None
      | Some _ => next err
      end
  | ErrorMiddleware h :: rest =>
      let next : NextFunction := fun e => handle_from rest e req done in
      match err with
      | Some (Raised e) => try_catch (h e req next) (fun e' => next (Some e'))
      | Some _ => unmodelled
      | None => next None
      end
  end.

(** [app.listen(port, callback)]: the attempt is recorded and the
    environment decides its outcome.  Once the socket listens Express
    invokes the callback.  A failed bind is not thrown by the call: Node
    reports it later as the server's 'error' event, which Express 5 hands
    to the callback (the callback of this program ignores its arguments)
    and Express 4 leaves without a listener (Node then ends the process,
    after [startServer] has returned).  Only a fault in the call itself is
    thrown.  The callback of this program only logs, so running
    it at the point of the call or later leaves the same world. *)
Definition listen (port : value) (callback : M unit) : M unit :=
  fun w =>
    let w' := set_listens w (listens w ++ [port]) in
    match bind_outcome w (length (listens w)) with
    | Bound => callback w'
    | ListenThrows e => throw (Raised e) w'
    | ErrorEvent _ => ret tt w'
    | ErrorToCallback _ => callback w'
    end.

(** ** src/app.ts *)

(** [app.get('/', (req, res) => { res.send('Welcome to auth service') })] *)
Definition rootHandler (req : Request) : M unit :=
  response.send req "Welcome to auth service".

(** The global error handler:
    [app.use((err, req, res, next) => { ... })]. *)
Definition errorHandler (err : HttpError) (req : Request)
           (next : NextFunction) : M unit :=
  logger.error [message err] ;;
  let statusCode := js_or (statusCode err) (VNumber 500) in
  response.status statusCode ;;
  response.json req
    (VObject
       [("error",
         VArray
           [VObject
              [("type", name err);
               ("msg", message err);
               ("path", VString "");
               ("location", VString "")]])]).

Definition app : list Layer :=
  [ Route GET "/" (fun req _ => rootHandler req);
    ErrorMiddleware errorHandler ].

(** One request served by the application: Express creates the response
    object and hands the request to the stack. *)
Definition serve (req : Request) (done : NextFunction) : M unit :=
  fun w => handle_from app None req done (set_res w fresh_response).

(** ** src/server.ts *)

Definition startServer (Config : ConfigT) : M unit :=
  let PORT := PORT Config in
  try_catch
    (listen PORT
       (logger.warn [VString "testing logger warn"] ;;
        logger.error [VString "testing logger error"] ;;
        logger.info [VString "Server listening on port";
                     VObject [("port", PORT)]]))
    (fun err =>
       console.error err ;;
       process.exit 1%Z).

(** ** src/utilis.ts *)

(** Modelled from the spec: [src/utilis.ts] is not part of the sources; the
    spec calls its default export "a helper addition function".  Addition
    of two JavaScript numbers is binary64 addition. *)
Definition sum (a b : float) : float := (a + b)%float.

(** ** Concrete values used in the examples *)

Definition quiet_world : World :=
  mkWorld [] [] [] (fun _ => Bound) fresh_response.

Definition EADDRINUSE : HttpError :=
  mkHttpError VUndefined (VString "Error")
              (VString "listen EADDRINUSE: address already in use :::5501").

(** The port is taken, under Express 5 and under Express 4. *)
Definition busy_world : World :=
  mkWorld [] [] [] (fun _ => ErrorToCallback EADDRINUSE) fresh_response.

Definition busy_world_v4 : World :=
  mkWorld [] [] [] (fun _ => ErrorEvent EADDRINUSE) fresh_response.

Definition bad_port : HttpError :=
  mkHttpError VUndefined (VString "RangeError")
              (VString "options.port should be >= 0 and < 65536.").

Definition bad_port_world : World :=
  mkWorld [] [] [] (fun _ => ListenThrows bad_port) fresh_response.

Definition get_root : Request :=
  mkRequest GET "/" [] [] VUndefined.


(** A conditional GET that any current representation satisfies. *)
Definition get_root_revalidate : Request :=
  mkRequest GET "/" [] [("if-none-match", "*")] VUndefined.

Definition head_root : Request :=
  mkRequest HEAD "/" [] [] VUndefined.

Definition post_root : Request :=
  mkRequest POST "/" [] [("content-type", "application/json")]
            (VObject [("email", VString "a@b.c")]).



(** A [next] whose call would not go unnoticed. *)
Definition loud_next : NextFunction := fun _ => process.exit 7%Z.

(** A [done] that answers a request nobody served, and would stop the
    process if it were ever handed an error. *)
Definition picky_done (req : Request) : NextFunction :=
  fun e =>
    match e with
    | None => response.status (VNumber 404) ;; response.send req "Not Found"
    | Some _ => process.exit 7%Z
    end.

(** The same answer for an unserved request, and errors shrugged off. *)
Definition lenient_done (req : Request) : NextFunction :=
  fun e =>
    match e with
    | None => response.status (VNumber 404) ;; response.send req "Not Found"
    | Some _ => ret tt
    end.



(** The object the error handler gives to [res.json]. *)
Definition error_envelope (err : HttpError) : value :=
  VObject
    [("error",
      VArray
        [VObject
           [("type", name err);
            ("msg", message err);
            ("path", VString "");
            ("location", VString "")]])].

(** The member [k: v] of a JSON object, left out when [v] is
    [undefined]. *)
Definition member (k : string) (v : value) : list (string * json) :=
  match stringify v with
  | Some j => [(k, j)]
  | None => []
  end.

(** The JSON document of the error envelope. *)
Definition envelope_doc (err : HttpError) : json :=
  JObject
    [("error",
      JArray
        [JObject
           (member "type" (name err) ++
            member "msg" (message err) ++
            [("path", JString ""); ("location", JString "")])])].

(** The status the error handler asks for. *)
Definition requested_status (err : HttpError) : value :=
  js_or (statusCode err) (VNumber 500).

Definition error_line (err : HttpError) : LogLine :=
  mkLogLine error_level [message err].

Definition http_401 : HttpError :=
  mkHttpError (VNumber 401) (VString "UnauthorizedError")
              (VString "You can not access this route").

(** A plain [Error]: it has no [statusCode]. *)
Definition plain_error : HttpError :=
  mkHttpError VUndefined (VString "Error") (VString "boom").

(** An error that has lost its name. *)
Definition nameless_error : HttpError :=
  mkHttpError (VNumber 400) VUndefined (VString "bad input").

Definition weird_status (code : float) : HttpError :=
  mkHttpError (VNumber code) (VString "Error") (VString "weird").

Definition readiness_lines (port : value) : list LogLine :=
  [ mkLogLine warn_level [VString "testing logger warn"];
    mkLogLine error_level [VString "testing logger error"];
    mkLogLine info_level [VString "Server listening on port";
                          VObject [("port", port)]] ].

Definition config_5501 : ConfigT := mkConfig (VString "5501").

(** * Properties *)

(** ** Truthiness *)

Example falsy_values :
  map ToBoolean
      [VUndefined; VNull; VBool false; VNumber 0; VNumber (-0);
       VNumber nan; VString ""] = repeat false 7.
Proof. reflexivity. Qed.

Example truthy_values :
  map ToBoolean
      [VBool true; VNumber 404; VNumber 999; VNumber (-1); VNumber infinity;
       VString "0"; VArray []; VObject []] = repeat true 8.
Proof. reflexivity. Qed.

Lemma js_or_truthy (a b : value) : ToBoolean a = true -> js_or a b = a.
Proof. unfold js_or. intros ->. reflexivity. Qed.

Lemma js_or_falsy (a b : value) : ToBoolean a = false -> js_or a b = b.
Proof. unfold js_or. intros ->. reflexivity. Qed.

(** ** Status codes, bodies and freshness *)

Example status_verdicts :
  map status_verdict
      [VNumber 100; VNumber 404; VNumber 999; VNumber 99; VNumber 1000;
       VNumber (-1); VNumber nan; VBool true; VUndefined;
       VNumber 404.5; VString "404"]
  = [Accepted 100; Accepted 404; Accepted 999; Rejected; Rejected;
     Rejected; Rejected; Rejected; Rejected;
     Undetermined; Undetermined].
Proof. reflexivity. Qed.

Lemma verdict_accepted (code : value) (x : float) :
  status_verdict code = Accepted x ->
  code = VNumber x /\ valid_status x = true.
Proof.
  destruct code as [| | b | y | s | xs | fs]; cbn [status_verdict];
    try discriminate.
  destruct (valid_status y) eqn:Hv.
  - intros [= <-]. split; [reflexivity | exact Hv].
  - destruct (_ || _); discriminate.
Qed.

Lemma verdict_of_valid (x : float) :
  valid_status x = true -> status_verdict (VNumber x) = Accepted x.
Proof. intros Hv. cbn [status_verdict]. rewrite Hv. reflexivity. Qed.

Lemma verdict_500 : status_verdict (VNumber 500) = Accepted 500.
Proof. reflexivity. Qed.

Lemma verdict_200 : status_verdict (VNumber 200) = Accepted 200.
Proof. reflexivity. Qed.

(** A request without an [If-None-Match] header is never fresh. *)
Lemma unconditional_not_fresh (req : Request) (x : float) :
  header req "if-none-match" = None -> fresh req x = Some false.
Proof.
  intros Hh. unfold fresh. rewrite Hh.
  destruct (negb _); [reflexivity|]. destruct (negb _); reflexivity.
Qed.

(** Outside 2xx and 304 no request is fresh. *)
Lemma error_status_not_fresh (req : Request) (x : float) :
  (((200 <=? x) && (x <? 300)) || (x =? 304))%float = false ->
  fresh req x = Some false.
Proof.
  intros Hx. unfold fresh. rewrite Hx.
  destruct (negb _); reflexivity.
Qed.

Lemma fresh_500 (req : Request) : fresh req 500 = Some false.
Proof. apply error_status_not_fresh. reflexivity. Qed.

Example stringify_examples :
  stringify (VObject [("a", VUndefined); ("b", VNumber nan);
                      ("c", VNumber (-0)); ("d", VArray [VUndefined])])
  = Some (JObject [("b", JNull); ("c", JNumber 0); ("d", JArray [JNull])]).
Proof. reflexivity. Qed.

Lemma stringify_envelope (err : HttpError) :
  stringify (error_envelope err) = Some (envelope_doc err).
Proof.
  unfold error_envelope, envelope_doc, member. cbn [stringify map].
  destruct (stringify (name err)), (stringify (message err)); reflexivity.
Qed.

(** ** The response object *)

Lemma write_accepted (req : Request) (p : Payload) (w : World)
      (x : float) (f : bool) :
  sent (res w) = [] ->
  status_verdict (res_statusCode (res w)) = Accepted x ->
  fresh req x = Some f ->
  response.write req p w =
  (Normal tt,
   set_res w (mkResponse
                (VNumber (response.settled x f))
                [mkMessage (VNumber (response.settled x f))
                           (response.on_wire req (response.settled x f) p)])).
Proof.
  intros Hs Hv Hf. unfold response.write. rewrite Hs, Hv, Hf. reflexivity.
Qed.

(** ** The error handler, run symbolically *)

(** The handler on a response not yet sent, when the status it asks for is
    accepted and the freshness of the request is decided. *)
Lemma errorHandler_accepts (err : HttpError) (req : Request)
      (next : NextFunction) (w : World) (x : float) (f : bool) :
  sent (res w) = [] ->
  status_verdict (requested_status err) = Accepted x ->
  fresh req x = Some f ->
  errorHandler err req next w =
  (Normal tt,
   mkWorld (logged w ++ [error_line err]) (stderr w) (listens w)
           (bind_outcome w)
           (mkResponse
              (VNumber (response.settled x f))
              [mkMessage (VNumber (response.settled x f))
                         (response.on_wire req (response.settled x f)
                                           (Json (envelope_doc err)))])).
Proof.
  intros Hs Hv Hf. unfold requested_status in Hv.
  unfold errorHandler, bind, logger.error, logger.log, response.status,
    response.json.
  cbv beta iota. rewrite Hv. cbv beta iota.
  change (VObject _) with (error_envelope err).
  rewrite stringify_envelope.
  rewrite (write_accepted req _ _ x f);
    [reflexivity | exact Hs | exact Hv | exact Hf].
Qed.

(** The handler on a response not yet sent, when the status it asks for is
    refused: [res.status] (or, with Express 4, the writing of the head)
    throws after the line was logged, and nothing is written. *)
Lemma errorHandler_rejects (err : HttpError) (req : Request)
      (next : NextFunction) (w : World) :
  sent (res w) = [] ->
  status_verdict (requested_status err) = Rejected ->
  errorHandler err req next w =
  (Throw (InvalidStatusCode (requested_status err)),
   set_logged w (logged w ++ [error_line err])).
Proof.
  intros Hs Hv. unfold requested_status in *.
  unfold errorHandler, bind, logger.error, logger.log, response.status.
  cbv beta iota. rewrite Hv.
  cbn [res set_logged sent]. rewrite Hs. reflexivity.
Qed.

(** A falsy [statusCode] makes the handler ask for 500, which is accepted
    and is never the status of a fresh request. *)
Lemma requested_500 (err : HttpError) :
  ToBoolean (statusCode err) = false ->
  status_verdict (requested_status err) = Accepted 500.
Proof.
  intros Hf. unfold requested_status. rewrite (js_or_falsy _ _ Hf).
  exact verdict_500.
Qed.

Lemma requested_truthy (err : HttpError) :
  ToBoolean (statusCode err) = true ->
  requested_status err = statusCode err.
Proof. intros Ht. unfold requested_status. apply js_or_truthy, Ht. Qed.

(** In every case the log line is written first, and the rest of the
    handler leaves the log alone. *)
Lemma errorHandler_logged (err : HttpError) (req : Request)
      (next : NextFunction) (w : World) :
  logged (snd (errorHandler err req next w)) = logged w ++ [error_line err].
Proof.
  unfold errorHandler, bind, logger.error, logger.log, response.status,
    response.json, response.write.
  cbv beta iota.
  destruct (status_verdict (js_or (statusCode err) (VNumber 500))) as [x| |];
    cbn [res set_logged set_res sent res_statusCode logged snd].
  - destruct (sent (res w)); [|reflexivity].
    destruct (status_verdict (js_or (statusCode err) (VNumber 500)));
      try reflexivity.
    destruct (fresh req x0); reflexivity.
  - destruct (sent (res w)); reflexivity.
  - reflexivity.
Qed.

(** ** The root route *)









(** ** The global error handler *)

Section ErrorHandler.

Variables (err : HttpError) (req : Request) (next : NextFunction).
Variable w : World.

(** C2, as amended: on a response not yet sent, the response written for
    an error carries status 500 when the error's [statusCode] is absent or
    falsy, and carries the error's [statusCode] when that is truthy, is a
    valid status code (an integer from 100 to 999) and the request is not
    a fresh conditional request. *)
Theorem error_status_valid_or_500 :
  sent (res w) = [] ->
  (ToBoolean (statusCode err) = false ->
   map status (sent (res (exec (errorHandler err req next) w)))
   = [VNumber 500])
  /\ (forall x : float,
         ToBoolean (statusCode err) = true ->
         status_verdict (statusCode err) = Accepted x ->
         fresh req x = Some false ->
         map status (sent (res (exec (errorHandler err req next) w)))
         = [statusCode err]).
Proof.
  intros Hs. unfold exec. split.
  - intros Hf.
    rewrite (errorHandler_accepts err req next w 500 false Hs
               (requested_500 err Hf) (fresh_500 req)).
    reflexivity.
  - intros x Ht Hv Hf.
    assert (Hr : status_verdict (requested_status err) = Accepted x)
      by (rewrite (requested_truthy err Ht); exact Hv).
    rewrite (errorHandler_accepts err req next w x false Hs Hr Hf).
    destruct (verdict_accepted _ _ Hv) as [-> _]. reflexivity.
Qed.

(** C3, as amended: on a response not yet sent, for a request that is
    neither a HEAD nor a fresh conditional request, and a status that is
    accepted and allows a body, the body written for an error is the JSON
    text of the object whose [error] member is a one-element list; the
    element has [type] = [err.name] and [msg] = [err.message] (each left
    out when it is [undefined]), and [path] and [location] equal to the
    empty string, whatever the error is. *)
Theorem error_body_envelope_json (x : float) :
  sent (res w) = [] ->
  status_verdict (requested_status err) = Accepted x ->
  fresh req x = Some false ->
  bodiless x = false ->
  method req <> HEAD ->
  map payload (sent (res (exec (errorHandler err req next) w))) =
  [Json (JObject
           [("error",
             JArray
               [JObject
                  (member "type" (name err) ++
                   member "msg" (message err) ++
                   [("path", JString ""); ("location", JString "")])])])].
Proof.
  intros Hs Hv Hf Hb Hm. unfold exec.
  rewrite (errorHandler_accepts err req next w x false Hs Hv Hf).
  cbn [snd res sent map payload]. unfold response.on_wire, response.settled.
  rewrite Hb. destruct (method req); try reflexivity. congruence.
Qed.

(** C6: handling an error appends exactly one line to the log, at error
    severity, whose text is the error's message. *)
Theorem error_logged_once :
  logged (exec (errorHandler err req next) w) =
  logged w ++ [mkLogLine error_level [message err]].
Proof. unfold exec. apply errorHandler_logged. Qed.

(** C8, as amended: the handler never calls [next]: its run is the same
    whatever [next] would do.  On a response not yet sent it ends by
    writing exactly one response when the status it asks for is accepted
    (and the freshness of the request is decided); when that status is
    refused it throws instead and writes nothing. *)
Theorem error_handler_terminal_when_accepted :
  (forall next' : NextFunction,
      errorHandler err req next' w = errorHandler err req next w)
  /\ (forall (x : float) (f : bool),
         sent (res w) = [] ->
         status_verdict (requested_status err) = Accepted x ->
         fresh req x = Some f ->
         completion (errorHandler err req next) w = Normal tt
         /\ length (sent (res (exec (errorHandler err req next) w))) = 1)
  /\ (sent (res w) = [] ->
      status_verdict (requested_status err) = Rejected ->
      completion (errorHandler err req next) w
      = Throw (InvalidStatusCode (requested_status err))
      /\ sent (res (exec (errorHandler err req next) w)) = []).
Proof.
  split; [reflexivity|]. split.
  - intros x f Hs Hv Hf. unfold completion, exec.
    rewrite (errorHandler_accepts err req next w x f Hs Hv Hf).
    split; reflexivity.
  - intros Hs Hv. unfold completion, exec.
    rewrite (errorHandler_rejects err req next w Hs Hv).
    split; [reflexivity | exact Hs].
Qed.

(** C9, as amended: the handler neither validates nor clamps: a truthy
    [statusCode] is handed to [res.status] as it is.  On a response not
    yet sent it reaches the response unchanged when it is a valid status
    code (an integer from 100 to 999) and the request is not a fresh
    conditional request; when it is refused (a negative number, 1000),
    [res.status] throws with that very value and no response is written. *)
Theorem error_status_passthrough_when_valid :
  ToBoolean (statusCode err) = true ->
  sent (res w) = [] ->
  (forall x : float,
      status_verdict (statusCode err) = Accepted x ->
      fresh req x = Some false ->
      map status (sent (res (exec (errorHandler err req next) w)))
      = [statusCode err]
      /\ res_statusCode (res (exec (errorHandler err req next) w))
         = statusCode err)
  /\ (status_verdict (statusCode err) = Rejected ->
      completion (errorHandler err req next) w
      = Throw (InvalidStatusCode (statusCode err))
      /\ sent (res (exec (errorHandler err req next) w)) = []).
Proof.
  intros Ht Hs. pose proof (requested_truthy err Ht) as Hr.
  unfold completion, exec. split.
  - intros x Hv Hf.
    assert (Hv' : status_verdict (requested_status err) = Accepted x)
      by (rewrite Hr; exact Hv).
    rewrite (errorHandler_accepts err req next w x false Hs Hv' Hf).
    destruct (verdict_accepted _ _ Hv) as [-> _]. split; reflexivity.
  - intros Hv.
    assert (Hv' : status_verdict (requested_status err) = Rejected)
      by (rewrite Hr; exact Hv).
    rewrite (errorHandler_rejects err req next w Hs Hv'), Hr.
    split; [reflexivity | exact Hs].
Qed.

End ErrorHandler.

Lemma error_status_valid_or_500_witness :
  (sent (res quiet_world) = []
   /\ ToBoolean (statusCode plain_error) = false
   /\ map status
          (sent (res (exec (errorHandler plain_error get_root loud_next)
                           quiet_world))) = [VNumber 500])
  /\ (ToBoolean (statusCode http_401) = true
      /\ status_verdict (statusCode http_401) = Accepted 401
      /\ fresh get_root_revalidate 401 = Some false
      /\ map status
             (sent (res (exec (errorHandler http_401 get_root_revalidate
                                            loud_next) quiet_world)))
         = [VNumber 401]).
Proof.
  split.
  - split; [reflexivity|]. split; [reflexivity|].
    apply (proj1 (error_status_valid_or_500
                    plain_error get_root loud_next quiet_world eq_refl)).
    reflexivity.
  - split; [reflexivity|]. split; [reflexivity|]. split; [reflexivity|].
    apply (proj2 (error_status_valid_or_500
                    http_401 get_root_revalidate loud_next quiet_world
                    eq_refl) 401%float); reflexivity.
Defined.

(** C2 as stated fails: 1000 is truthy, yet no response goes out with
    status 1000 (the handler throws and writes nothing); and 200 is
    truthy, yet a fresh request is answered 304. *)
Lemma error_status_1000_not_sent :
  (ToBoolean (statusCode (weird_status 1000)) = true
   /\ completion (errorHandler (weird_status 1000) get_root loud_next)
                 quiet_world
      = Throw (InvalidStatusCode (VNumber 1000))
   /\ sent (res (exec (errorHandler (weird_status 1000) get_root loud_next)
                      quiet_world)) = [])
  /\ (ToBoolean (statusCode (weird_status 200)) = true
      /\ map status
             (sent (res (exec (errorHandler (weird_status 200)
                                            get_root_revalidate loud_next)
                              quiet_world)))
         = [VNumber 304]).
Proof. repeat split. Qed.

Lemma error_body_envelope_json_witness :
  (sent (res quiet_world) = []
   /\ status_verdict (requested_status nameless_error) = Accepted 400
   /\ fresh post_root 400 = Some false
   /\ bodiless 400 = false
   /\ method post_root <> HEAD)
  /\ map payload
         (sent (res (exec (errorHandler nameless_error post_root loud_next)
                          quiet_world)))
     = [Json (JObject
                [("error",
                  JArray
                    [JObject
                       [("msg", JString "bad input");
                        ("path", JString "");
                        ("location", JString "")]])])].
Proof.
  split; [repeat split; discriminate|].
  apply (error_body_envelope_json
           nameless_error post_root loud_next quiet_world 400%float);
    try reflexivity.
  discriminate.
Defined.

(** C3 as stated fails: an error of status 204 is answered without a body,
    and so is any error on a HEAD request. *)
Lemma error_body_empty_for_204 :
  map payload
      (sent (res (exec (errorHandler (weird_status 204) get_root loud_next)
                       quiet_world))) = [NoBody]
  /\ map payload
         (sent (res (exec (errorHandler http_401 head_root loud_next)
                          quiet_world))) = [NoBody].
Proof. split; reflexivity. Qed.

Lemma error_handler_terminal_when_accepted_witness :
  (sent (res quiet_world) = []
   /\ status_verdict (requested_status http_401) = Accepted 401
   /\ fresh get_root 401 = Some false
   /\ completion (errorHandler http_401 get_root loud_next) quiet_world
      = Normal tt
   /\ length (sent (res (exec (errorHandler http_401 get_root loud_next)
                              quiet_world))) = 1)
  /\ (status_verdict (requested_status (weird_status 1000)) = Rejected
      /\ sent (res (exec (errorHandler (weird_status 1000) get_root
                                       loud_next) quiet_world)) = []).
Proof.
  split.
  - split; [reflexivity|]. split; [reflexivity|]. split; [reflexivity|].
    apply (proj1 (proj2 (error_handler_terminal_when_accepted
                           http_401 get_root loud_next quiet_world))
                 401%float false); reflexivity.
  - split; [reflexivity|].
    apply (proj2 (proj2 (error_handler_terminal_when_accepted
                           (weird_status 1000) get_root loud_next
                           quiet_world))); reflexivity.
Defined.

(** C8 as stated fails: for an error of status -1 the handler throws and
    writes no response at all. *)
Lemma error_handler_throws_on_negative_status :
  completion (errorHandler (weird_status (-1)) get_root loud_next)
             quiet_world
  = Throw (InvalidStatusCode (VNumber (-1)))
  /\ length (sent (res (exec (errorHandler (weird_status (-1)) get_root
                                           loud_next) quiet_world))) = 0.
Proof. split; reflexivity. Qed.

Lemma error_status_passthrough_when_valid_witness :
  (ToBoolean (statusCode (weird_status 999)) = true
   /\ sent (res quiet_world) = []
   /\ status_verdict (statusCode (weird_status 999)) = Accepted 999
   /\ fresh get_root 999 = Some false
   /\ map status
          (sent (res (exec (errorHandler (weird_status 999) get_root
                                         loud_next) quiet_world)))
      = [VNumber 999])
  /\ (ToBoolean (statusCode (weird_status (-1))) = true
      /\ status_verdict (statusCode (weird_status (-1))) = Rejected
      /\ completion (errorHandler (weird_status (-1)) get_root loud_next)
                    quiet_world
         = Throw (InvalidStatusCode (VNumber (-1)))).
Proof.
  split.
  - split; [reflexivity|]. split; [reflexivity|]. split; [reflexivity|].
    split; [reflexivity|].
    apply (proj1 (error_status_passthrough_when_valid
                    (weird_status 999) get_root loud_next quiet_world
                    eq_refl eq_refl) 999%float); reflexivity.
  - split; [reflexivity|]. split; [reflexivity|].
    apply (proj2 (error_status_passthrough_when_valid
                    (weird_status (-1)) get_root loud_next quiet_world
                    eq_refl eq_refl)); reflexivity.
Defined.

(** C9 as stated fails: -1 is truthy, yet it never becomes the status of a
    response: nothing is written. *)
Lemma negative_status_not_passed_through :
  ToBoolean (statusCode (weird_status (-1))) = true
  /\ map status
         (sent (res (exec (errorHandler (weird_status (-1)) get_root
                                        loud_next) quiet_world)))
     <> [VNumber (-1)].
Proof. split; [reflexivity | discriminate]. Qed.

Example unauthorized_response :
  sent (res (exec (handle_from app (Some (Raised http_401)) get_root
                               loud_next) quiet_world)) =
  [mkMessage (VNumber 401)
             (Json (JObject
                      [("error",
                        JArray
                          [JObject
                             [("type", JString "UnauthorizedError");
                              ("msg", JString "You can not access this route");
                              ("path", JString "");
                              ("location", JString "")]])]))].
Proof. reflexivity. Qed.

Example zero_and_nan_are_500 :
  map (fun c => map status
                    (sent (res (exec (errorHandler (weird_status c) get_root
                                                   loud_next) quiet_world))))
      [0%float; nan] = [[VNumber 500]; [VNumber 500]].
Proof. reflexivity. Qed.

Example second_response_throws :
  completion (rootHandler get_root ;; errorHandler http_401 get_root loud_next)
             quiet_world
  = Throw HeadersSent.
Proof. reflexivity. Qed.

(** ** The bootstrap *)

(** What the [catch] block does with a fault thrown by [app.listen]
    itself: it prints it and exits with code 1. *)
Lemma listen_fault_exits (Config : ConfigT) (w : World) (e : HttpError) :
  bind_outcome w (length (listens w)) = ListenThrows e ->
  startServer Config w =
  (Exit 1%Z,
   mkWorld (logged w) (stderr w ++ [Raised e]) (listens w ++ [PORT Config])
           (bind_outcome w) (res w)).
Proof.
  intros Hb. unfold startServer, try_catch, listen. rewrite Hb. reflexivity.
Qed.

(** What happens when the bind fails and nobody listens for the server's
    'error' event: [startServer] returns, having done nothing. *)
Lemma bind_error_event_unnoticed (Config : ConfigT) (w : World)
      (e : HttpError) :
  bind_outcome w (length (listens w)) = ErrorEvent e ->
  startServer Config w =
  (Normal tt,
   mkWorld (logged w) (stderr w) (listens w ++ [PORT Config])
           (bind_outcome w) (res w)).
Proof.
  intros Hb. unfold startServer, try_catch, listen. rewrite Hb. reflexivity.
Qed.

(** C4, the code at the failing input: when the bind fails and Express
    hands the error to the listen callback, the [catch] block does not
    run.  Nothing is printed on the console and the process does not exit;
    the callback logs the three readiness lines, "Server listening on
    port" included. *)
Theorem bind_failure_bypasses_catch
        (Config : ConfigT) (w : World) (e : HttpError) :
  bind_outcome w (length (listens w)) = ErrorToCallback e ->
  startServer Config w =
  (Normal tt,
   mkWorld (logged w ++ readiness_lines (PORT Config))
           (stderr w) (listens w ++ [PORT Config]) (bind_outcome w) (res w)).
Proof.
  intros Hb. unfold startServer, try_catch, listen. rewrite Hb.
  cbn. unfold readiness_lines. rewrite <- !app_assoc. reflexivity.
Qed.

Lemma bind_failure_bypasses_catch_witness :
  bind_outcome busy_world (length (listens busy_world))
  = ErrorToCallback EADDRINUSE
  /\ completion (startServer config_5501) busy_world = Normal tt
  /\ stderr (exec (startServer config_5501) busy_world) = []
  /\ logged (exec (startServer config_5501) busy_world)
     = readiness_lines (VString "5501").
Proof.
  split; [reflexivity|]. unfold completion, exec.
  rewrite (bind_failure_bypasses_catch config_5501 busy_world EADDRINUSE
                                       eq_refl).
  split; [reflexivity|]. split; reflexivity.
Defined.

(** C5: when the bind succeeds, the bootstrap logs exactly three lines, in
    the order warn, error, info, and does nothing else: no console output,
    no exit, no second [app.listen]. *)
Theorem bind_success_logs_three (Config : ConfigT) (w : World) :
  bind_outcome w (length (listens w)) = Bound ->
  startServer Config w =
  (Normal tt,
   mkWorld (logged w ++ readiness_lines (PORT Config))
           (stderr w) (listens w ++ [PORT Config]) (bind_outcome w) (res w))
  /\ map level (readiness_lines (PORT Config))
     = [warn_level; error_level; info_level].
Proof.
  intros Hb. split; [|reflexivity].
  unfold startServer, try_catch, listen. rewrite Hb.
  cbn. unfold readiness_lines.
  rewrite <- !app_assoc. reflexivity.
Qed.

Lemma bind_success_logs_three_witness :
  bind_outcome quiet_world (length (listens quiet_world)) = Bound
  /\ logged (exec (startServer config_5501) quiet_world)
     = readiness_lines (VString "5501").
Proof.
  split; [reflexivity|].
  unfold exec.
  rewrite (proj1 (bind_success_logs_three config_5501 quiet_world eq_refl)).
  reflexivity.
Defined.

(** ** The addition helper *)

(** C7: [sum(1, 2)] is [3]. *)
Theorem sum_1_2 : sum 1 2 = 3%float.
Proof. reflexivity. Qed.

(** * Further properties of the application and the bootstrap *)

(** ** What the stack does with the requests the route does not serve *)




(** X2: the application never hands an error to [done]: two [done]
    callbacks that agree on the no-error call give the same run of
    [serve], for every request. *)
Theorem serve_reports_no_error
        (req : Request) (done1 done2 : NextFunction) (w : World) :
  (forall w', done1 None w' = done2 None w') ->
  serve req done1 w = serve req done2 w.
Proof.
  intros Hd. unfold serve. cbn [app handle_from].
  destruct (route_matches GET "/" req).
  - unfold try_catch, rootHandler, response.send, response.write.
    cbn [res set_res sent fresh_response res_statusCode].
    rewrite verdict_200. destruct (fresh req 200); reflexivity.
  - apply Hd.
Qed.

Lemma serve_reports_no_error_witness :
  serve get_root (picky_done get_root) busy_world
  = serve get_root (lenient_done get_root) busy_world
  /\ serve post_root (picky_done post_root) busy_world
     = serve post_root (lenient_done post_root) busy_world.
Proof.
  split.
  - apply (serve_reports_no_error
             get_root (picky_done get_root) (lenient_done get_root)
             busy_world).
    reflexivity.
  - apply (serve_reports_no_error
             post_root (picky_done post_root) (lenient_done post_root)
             busy_world).
    reflexivity.
Defined.

(** ** An error pending in the stack *)

(** X3: with an error pending on a response not yet sent, the stack skips
    the root route for every request, a GET on "/" included.  When the
    status the handler asks for is accepted, exactly one message is
    written, the walk ends normally and [done] plays no part; when it is
    refused, the handler's exception goes to [done], after the line was
    logged and with nothing written. *)
Theorem pending_error_answered
        (err : HttpError) (req : Request) (done : NextFunction) (w : World) :
  sent (res w) = [] ->
  (forall (x : float) (f : bool),
      status_verdict (requested_status err) = Accepted x ->
      fresh req x = Some f ->
      handle_from app (Some (Raised err)) req done w =
      (Normal tt,
       mkWorld (logged w ++ [error_line err]) (stderr w) (listens w)
               (bind_outcome w)
               (mkResponse
                  (VNumber (response.settled x f))
                  [mkMessage (VNumber (response.settled x f))
                             (response.on_wire req (response.settled x f)
                                (Json (envelope_doc err)))])))
  /\ (status_verdict (requested_status err) = Rejected ->
      exists w' : World,
        handle_from app (Some (Raised err)) req done w =
        done (Some (InvalidStatusCode (requested_status err))) w'
        /\ logged w' = logged w ++ [error_line err]
        /\ sent (res w') = []).
Proof.
  intros Hs. cbn [app handle_from]. unfold try_catch. split.
  - intros x f Hv Hf.
    rewrite (errorHandler_accepts err req _ w x f Hs Hv Hf). reflexivity.
  - intros Hv.
    rewrite (errorHandler_rejects err req _ w Hs Hv).
    eexists. split; [reflexivity|]. split; [reflexivity | exact Hs].
Qed.

Lemma pending_error_answered_witness :
  (sent (res quiet_world) = []
   /\ status_verdict (requested_status http_401) = Accepted 401
   /\ fresh get_root 401 = Some false
   /\ map status
          (sent (res (exec (handle_from app (Some (Raised http_401))
                                        get_root (picky_done get_root))
                           quiet_world))) = [VNumber 401])
  /\ (status_verdict (requested_status (weird_status (-1))) = Rejected
      /\ completion (handle_from app (Some (Raised (weird_status (-1))))
                                 get_root (picky_done get_root))
                    quiet_world = Exit 7%Z).
Proof.
  split.
  - split; [reflexivity|]. split; [reflexivity|]. split; [reflexivity|].
    unfold exec.
    rewrite (proj1 (pending_error_answered
                      http_401 get_root (picky_done get_root) quiet_world
                      eq_refl) 401%float false eq_refl eq_refl).
    reflexivity.
  - split; [reflexivity|]. unfold completion.
    destruct (proj2 (pending_error_answered
                       (weird_status (-1)) get_root (picky_done get_root)
                       quiet_world eq_refl) eq_refl) as (w' & E & _).
    rewrite E. reflexivity.
Defined.



(** ** The ways the bootstrap can end *)

(** X6: no exception escapes [startServer] and 1 is its only exit code.
    It exits, having printed the error on the console and logged nothing,
    exactly when [app.listen] itself throws.  In every other case it
    returns normally and prints nothing: with the three readiness lines
    logged when the socket listens or when the bind error is handed to
    the callback, and with nothing logged when the bind error is only
    emitted as an event. *)
Theorem startServer_outcomes (Config : ConfigT) (w : World) :
  match bind_outcome w (length (listens w)) with
  | Bound | ErrorToCallback _ =>
      completion (startServer Config) w = Normal tt
      /\ logged (exec (startServer Config) w)
         = logged w ++ readiness_lines (PORT Config)
      /\ stderr (exec (startServer Config) w) = stderr w
  | ErrorEvent _ =>
      completion (startServer Config) w = Normal tt
      /\ logged (exec (startServer Config) w) = logged w
      /\ stderr (exec (startServer Config) w) = stderr w
  | ListenThrows e =>
      completion (startServer Config) w = Exit 1%Z
      /\ logged (exec (startServer Config) w) = logged w
      /\ stderr (exec (startServer Config) w) = stderr w ++ [Raised e]
  end.
Proof.
  unfold completion, exec, startServer, try_catch, listen.
  destruct (bind_outcome w (length (listens w))) as [|e|e|e]; cbn;
    unfold readiness_lines; rewrite <- ?app_assoc; repeat split.
Qed.

(** X7: whatever the outcome, [startServer] calls [app.listen] exactly
    once, with [Config.PORT] as it is (no default and no check, so even
    [undefined] is handed over), and leaves the response object alone. *)
Theorem startServer_listens_once (Config : ConfigT) (w : World) :
  listens (exec (startServer Config) w) = listens w ++ [PORT Config]
  /\ res (exec (startServer Config) w) = res w.
Proof.
  unfold exec, startServer, try_catch, listen.
  destruct (bind_outcome w (length (listens w))); split; reflexivity.
Qed.
